(** * mailingo: translation resolution and dual-format e-mail rendering

    A shallow embedding of the [mailingo] package (the [Mailer] type with
    [New], [translate], [processTranslations], [GenerateHTML] and
    [GeneratePlainText]) and of its [options] package, together with the
    properties of the rendering pipeline.

    Conventions.
    - Go strings are byte strings: [string].
    - A Go [error] is its message; the nil error is [None].
    - A Go result pair [(T, error)] whose first component is read by the
      caller is a product [T * option error].
    - Methods with a pointer receiver [(m *Mailer)] live in the [Method]
      monad, which threads the receiver through the call.
    - The collaborators outside this package (the go-i18n localizer and
      the html/template engine) appear through their interface only: a
      record holding the function the package calls. *)

From Stdlib Require Import Ascii.
From stdpp Require Import base strings gmap list.

(** ** Strings and buffers *)

Definition error : Type := string.

(** The newline byte, written ["\n"] in the Go sources. *)
Definition nl : string := String (ascii_of_nat 10) "".

(** [bytes.Buffer.WriteString]: append to the buffer. *)
Definition WriteString (buf s : string) : string := buf +:+ s.

(** [strings.Contains]. *)
Fixpoint Contains (s sub : string) : bool :=
  String.prefix sub s ||
  match s with
  | EmptyString => false
  | String _ s' => Contains s' sub
  end.

(** ** Data model (the exported structs of the package) *)

Record Product := mkProduct {
  Product_Name : string;
  Product_Link : string;
  Product_Logo : string;
  Product_Copyright : string
}.

Record Theme := mkTheme {
  PrimaryColor : string;
  BackgroundColor : string;
  TextColor : string;
  ButtonColor : string;
  ButtonTextColor : string
}.

Record Entry := mkEntry {
  Key : string;
  Value : string
}.

Record Columns := mkColumns {
  CustomWidth : gmap string string;
  CustomAlignment : gmap string string
}.

Record Table := mkTable {
  Data : list (list Entry);
  Table_Columns : Columns
}.

Record Button := mkButton {
  Text : string;
  Button_Link : string;
  Color : string
}.

Record Action := mkAction {
  Instructions : string;
  Action_Button : Button;
  InvertedButton : bool
}.

Record Attachment := mkAttachment {
  Attachment_Name : string;
  URL : string;
  Size : string;
  Type_ : string
}.

Record SMTPAttachment := mkSMTPAttachment {
  Filename : string;
  Content : list Byte.byte;
  ContentType : string
}.

Record Body := mkBody {
  Name : string;
  Intros : list string;
  Dictionary : list Entry;
  Body_Table : Table;
  Actions : list Action;
  Outros : list string;
  Attachments : list Attachment;
  Greeting : string;
  Signature : string;
  Title : string
}.

Record Email := mkEmail {
  Email_Body : Body;
  SMTPAttachments : list SMTPAttachment
}.

Definition DefaultTheme : Theme :=
  mkTheme "#3869D4" "#F2F4F6" "#51545E" "#3869D4" "#FFFFFF".

Definition FlatTheme : Theme :=
  mkTheme "#2F3133" "#FFFFFF" "#2F3133" "#2F3133" "#FFFFFF".

(** ** Collaborators *)

(** [*i18n.Localizer], through the one method the package calls:
    [Localize(&i18n.LocalizeConfig{MessageID: id})], which yields a text
    and an error. *)
Record Localizer := mkLocalizer {
  Localize : string -> string * option error
}.

(** Modelled from the spec: the translation catalog [*i18n.Bundle] of the
    go-i18n collaborator, whose code is outside this repository. The
    catalog is a map keyed by locale tag, then by message id, and a lookup
    either finds the localized text or misses. *)
Abbreviation Bundle := (gmap string (gmap string string)).

Definition lookupMessage (b : Bundle) (lang id : string) : option string :=
  b !! lang ≫= (.!! id).

(** Modelled from the spec: [i18n.NewLocalizer(bundle, lang)]; a miss is
    reported as an error next to an empty text. Language matching and the
    fall-back to a default language of the library are not part of the
    specification and not of this model. The renderers reach the localizer
    through [translate] only, whose policy is proved for every
    [Localizer]. *)
Definition NewLocalizer (b : Bundle) (lang : string) : Localizer :=
  {| Localize id :=
       match lookupMessage b lang id with
       | Some text => (text, None)
       | None => ("", Some ("message " +:+ id +:+ " not found in language " +:+ lang))
       end |}.

(** The context handed to the template: the [map[string]interface{}] built
    by [processTranslations], with keys ["Product"], ["Theme"],
    ["CustomCSS"] and ["Body"]. The ["Product"], ["Body"] and ["Table"]
    sub-maps carry exactly the keys of the structs of the same name. *)
Record TemplateData := mkTemplateData {
  Data_Product : Product;
  Data_Theme : Theme;
  Data_CustomCSS : string;
  Data_Body : Body
}.

(** [*template.Template], through [Execute(&buf, data)]: the bytes written
    to the buffer, and the error. On an error the buffer may already hold
    a part of the document. *)
Record Template := mkTemplate {
  Execute : TemplateData -> string * option error
}.

(** [fs.FS], through [fs.ReadFile(fsys, path)]. *)
Record FS := mkFS {
  ReadFile : string -> string + error
}.

(** ** The Mailer and its methods *)

(** The fields are unexported and [New] is the constructor of the package;
    it never stores a nil template, so [template] is a template handle. *)
Record Mailer := mkMailer {
  bundle : Bundle;
  product : Product;
  theme : Theme;
  template : Template;
  customCSS : string
}.

(** A method with receiver [m *Mailer]: it reads the receiver, may store
    to it, and returns a value. *)
Definition Method (A : Type) : Type := Mailer -> A * Mailer.

Global Instance method_ret : MRet Method := fun A a m => (a, m).

Global Instance method_bind : MBind Method :=
  fun A B k c m => let '(a, m') := c m in k a m'.

(** Read a field of the receiver. *)
Definition field {A} (f : Mailer -> A) : Method A := fun m => (f m, m).

(** Assign through the receiver. *)
Definition store (f : Mailer -> Mailer) : Method unit := fun m => (tt, f m).

(** What a call returns, and the receiver it leaves behind. *)
Definition returned {A} (c : Method A) (m : Mailer) : A := fst (c m).
Definition receiver_after {A} (c : Method A) (m : Mailer) : Mailer := snd (c m).

(** [translate]. The receiver is not used by the body, so the helper is a
    function of the localizer and the two keys. *)
Definition translate (localizer : Localizer) (key defaultKey : string) : string :=
  let key := if decide (key = "" ∧ defaultKey ≠ "") then defaultKey else key in
  if decide (key = "") then ""
  else
    let '(result, err) := Localize localizer key in
    match err with
    | Some _ => key
    | None => result
    end.

(** [processTranslations]. *)
Definition processTranslations (email : Email) (localizer : Localizer)
  : Method TemplateData :=
  let body := Email_Body email in
  let intros := map (fun intro => translate localizer intro "") (Intros body) in
  let outros := map (fun outro => translate localizer outro "") (Outros body) in
  let dictionary :=
    map (fun entry => {| Key := translate localizer (Key entry) "";
                         Value := Value entry |}) (Dictionary body) in
  let actions :=
    map (fun action =>
           {| Instructions := translate localizer (Instructions action) "";
              Action_Button :=
                {| Text := translate localizer (Text (Action_Button action)) "";
                   Button_Link := Button_Link (Action_Button action);
                   Color := Color (Action_Button action) |};
              InvertedButton := InvertedButton action |}) (Actions body) in
  let tableData :=
    map (fun row =>
           map (fun cell => {| Key := translate localizer (Key cell) "";
                               Value := Value cell |}) row) (Data (Body_Table body)) in
  let attachments := map (fun attachment => attachment) (Attachments body) in
  product ← field product;
  theme ← field theme;
  customCSS ← field customCSS;
  mret {| Data_Product :=
           {| Product_Name := Product_Name product;
              Product_Link := Product_Link product;
              Product_Logo := Product_Logo product;
              Product_Copyright :=
                translate localizer (Product_Copyright product) "product.copyright" |};
         Data_Theme := theme;
         Data_CustomCSS := customCSS;
         Data_Body :=
           {| Name := Name body;
              Greeting := translate localizer (Greeting body) "greeting";
              Signature := translate localizer (Signature body) "signature";
              Title := translate localizer (Title body) "";
              Intros := intros;
              Dictionary := dictionary;
              Body_Table := {| Data := tableData;
                               Table_Columns := Table_Columns (Body_Table body) |};
              Actions := actions;
              Outros := outros;
              Attachments := attachments |} |}.

(** [GenerateHTML]. *)
Definition GenerateHTML (email : Email) (lang : string)
  : Method (string * option error) :=
  bundle ← field bundle;
  let localizer := NewLocalizer bundle lang in
  data ← processTranslations email localizer;
  template ← field template;
  let '(buf, err) := Execute template data in
  match err with
  | Some e => mret ("", Some ("failed to execute email template: " +:+ e))
  | None => mret (buf, None)
  end.

(** The body of the attachment loop of [GeneratePlainText]. *)
Definition writeAttachment (buf : string) (attachment : Attachment) : string :=
  let buf := WriteString buf ("  - " +:+ Attachment_Name attachment) in
  let buf :=
    if decide (Type_ attachment ≠ "" ∨ Size attachment ≠ "") then
      let buf := WriteString buf " (" in
      let buf :=
        if decide (Type_ attachment ≠ "")
        then WriteString buf (Type_ attachment) else buf in
      let buf :=
        if decide (Size attachment ≠ "") then
          let buf :=
            if decide (Type_ attachment ≠ "")
            then WriteString buf ", " else buf in
          WriteString buf (Size attachment)
        else buf in
      WriteString buf ")"
    else buf in
  WriteString buf (nl +:+ "    " +:+ URL attachment +:+ nl).

(** [GeneratePlainText]. Every [for ... range] loop is a left fold over
    the slice that threads the buffer. *)
Definition GeneratePlainText (email : Email) (lang : string)
  : Method (string * option error) :=
  bundle ← field bundle;
  let localizer := NewLocalizer bundle lang in
  let body := Email_Body email in
  let buf := "" in
  (* Greeting *)
  let greeting := translate localizer (Greeting body) "greeting" in
  let buf := WriteString buf (greeting +:+ " " +:+ Name body +:+ "," +:+ nl +:+ nl) in
  (* Title *)
  let buf :=
    if decide (Title body ≠ "") then
      let title := translate localizer (Title body) "" in
      WriteString buf (title +:+ nl +:+ nl)
    else buf in
  (* Introduction paragraphs *)
  let buf :=
    foldl (fun buf intro =>
             let text := translate localizer intro "" in
             WriteString buf (text +:+ nl +:+ nl)) buf (Intros body) in
  (* Dictionary *)
  let buf :=
    foldl (fun buf entry =>
             let key := translate localizer (Key entry) "" in
             WriteString buf (key +:+ ": " +:+ Value entry +:+ nl))
          buf (Dictionary body) in
  let buf :=
    if decide (0 < length (Dictionary body)) then WriteString buf nl else buf in
  (* Actions *)
  let buf :=
    foldl (fun buf action =>
             let instructions := translate localizer (Instructions action) "" in
             let buttonText := translate localizer (Text (Action_Button action)) "" in
             WriteString buf
               (instructions +:+ nl +:+ buttonText +:+ ": " +:+
                Button_Link (Action_Button action) +:+ nl +:+ nl))
          buf (Actions body) in
  (* Closing paragraphs *)
  let buf :=
    foldl (fun buf outro =>
             let text := translate localizer outro "" in
             WriteString buf (text +:+ nl +:+ nl)) buf (Outros body) in
  (* Attachments *)
  let buf :=
    if decide (0 < length (Attachments body)) then
      let buf := WriteString buf ("Attachments:" +:+ nl) in
      let buf := foldl writeAttachment buf (Attachments body) in
      WriteString buf nl
    else buf in
  (* Signature *)
  product ← field product;
  let signature := translate localizer (Signature body) "signature" in
  let buf :=
    WriteString buf (signature +:+ "," +:+ nl +:+ Product_Name product +:+ nl +:+ nl) in
  (* Copyright *)
  let copyright := translate localizer (Product_Copyright product) "product.copyright" in
  let buf := WriteString buf copyright in
  mret (buf, None).

(** ** Package [options] *)

Record Config := mkConfig {
  CustomTemplate : option Template;
  CustomTemplateText : string;
  CustomTemplateFS : option FS;
  CustomTemplatePath : string;
  CustomCSS : string
}.

(** The type [Option], a function on a pointer to [Config]: an option
    updates the configuration. *)
Definition Option : Type := Config -> Config.

Definition WithCustomTemplate (tmpl : option Template) : Option :=
  fun c => {| CustomTemplate := tmpl;
              CustomTemplateText := CustomTemplateText c;
              CustomTemplateFS := CustomTemplateFS c;
              CustomTemplatePath := CustomTemplatePath c;
              CustomCSS := CustomCSS c |}.

Definition WithCustomTemplateString (tmplStr : string) : Option :=
  fun c => {| CustomTemplate := CustomTemplate c;
              CustomTemplateText := tmplStr;
              CustomTemplateFS := CustomTemplateFS c;
              CustomTemplatePath := CustomTemplatePath c;
              CustomCSS := CustomCSS c |}.

Definition WithCustomTemplateFile (filesystem : option FS) (path : string) : Option :=
  fun c => {| CustomTemplate := CustomTemplate c;
              CustomTemplateText := CustomTemplateText c;
              CustomTemplateFS := filesystem;
              CustomTemplatePath := path;
              CustomCSS := CustomCSS c |}.

Definition WithCustomCSS (css : string) : Option :=
  fun c => {| CustomTemplate := CustomTemplate c;
              CustomTemplateText := CustomTemplateText c;
              CustomTemplateFS := CustomTemplateFS c;
              CustomTemplatePath := CustomTemplatePath c;
              CustomCSS := css |}.

(** The zero value [&options.Config{}]. *)
Definition zeroConfig : Config := mkConfig None "" None "" "".

(** ** Construction *)

(** A call either returns or panics with a message. *)
Inductive outcome (A : Type) : Type :=
  | Returns (a : A)
  | Panics (msg : string).
Arguments Returns {A} a.
Arguments Panics {A} msg.

Section Construction.

(** [template.New("email").Parse(text)] of html/template. *)
Variable Parse : string -> Template + error.

(** The embedded file system [templatesFS] ([//go:embed templates/*.html]),
    whose files are not part of the sources at hand. *)
Variable templatesFS : FS.

(** The configuration after all options have been applied, in order. *)
Definition applyOptions (opts : list Option) : Config :=
  foldl (fun config opt => opt config) zeroConfig opts.

(** [New]. *)
Definition New (product : Product) (theme : Theme) (opts : list Option)
  : outcome Mailer :=
  let bundle : Bundle := ∅ in
  let config := applyOptions opts in
  let tmpl : outcome Template :=
    match CustomTemplate config,
          decide (CustomTemplateText config ≠ ""),
          CustomTemplateFS config,
          decide (CustomTemplatePath config ≠ "") with
    | Some t, _, _, _ => Returns t
    | None, left _, _, _ =>
        match Parse (CustomTemplateText config) with
        | inr err => Panics ("failed to parse custom template: " +:+ err)
        | inl t => Returns t
        end
    | None, right _, Some fsys, left _ =>
        match ReadFile fsys (CustomTemplatePath config) with
        | inr err => Panics ("failed to read custom template file: " +:+ err)
        | inl content =>
            match Parse content with
            | inr err => Panics ("failed to parse custom template file: " +:+ err)
            | inl t => Returns t
            end
        end
    | None, right _, _, _ =>
        match ReadFile templatesFS "templates/default.html" with
        | inr err => Panics ("failed to read default template: " +:+ err)
        | inl content =>
            match Parse content with
            | inr err => Panics ("failed to parse default template: " +:+ err)
            | inl t => Returns t
            end
        end
    end in
  match tmpl with
  | Panics msg => Panics msg
  | Returns tmpl =>
      Returns {| bundle := bundle;
                 product := product;
                 theme := theme;
                 template := tmpl;
                 customCSS := CustomCSS config |}
  end.

End Construction.

(** ** Catalog loading *)

(** Modelled from the spec: a catalog resource, as the go-i18n collaborator
    reads and parses it: either the locale tag with its flat map from
    message id to text, or the error of the load. *)
Record MessageFS := mkMessageFS {
  ReadMessages : string -> (string * gmap string string) + error
}.

(** [LoadMessageFileFS]. Modelled from the spec: loading merges the
    messages into the entry of their locale and keeps every other locale;
    a failed load leaves the catalog as it was. *)
Definition LoadMessageFileFS (fsys : MessageFS) (path : string)
  : Method (option error) :=
  match ReadMessages fsys path with
  | inr err => mret (Some err)
  | inl (tag, messages) =>
      _ ← store (fun m =>
             {| bundle :=
                  <[tag := messages ∪ default ∅ (bundle m !! tag)]> (bundle m);
                product := product m;
                theme := theme m;
                template := template m;
                customCSS := customCSS m |});
      mret None
  end.

(** ** The plain-text layout, as the specification words it

    The line-oriented document of section 4.4, written as a function of the
    resolved context alone: it never consults the localizer. *)

(** Concatenation of the blocks of a sequence, in order. *)
Definition concatMap {A} (f : A -> string) (l : list A) : string :=
  foldr (fun x rest => f x +:+ rest) "" l.

Definition textGreeting (d : TemplateData) : string :=
  Greeting (Data_Body d) +:+ " " +:+ Name (Data_Body d) +:+ "," +:+ nl +:+ nl.

Definition textTitle (present : bool) (d : TemplateData) : string :=
  if present then Title (Data_Body d) +:+ nl +:+ nl else "".

Definition textIntros (d : TemplateData) : string :=
  concatMap (fun text => text +:+ nl +:+ nl) (Intros (Data_Body d)).

Definition textDictionary (d : TemplateData) : string :=
  concatMap (fun entry => Key entry +:+ ": " +:+ Value entry +:+ nl)
            (Dictionary (Data_Body d))
  +:+ match Dictionary (Data_Body d) with [] => "" | _ :: _ => nl end.

Definition textActions (d : TemplateData) : string :=
  concatMap (fun action =>
               Instructions action +:+ nl +:+ Text (Action_Button action) +:+ ": "
               +:+ Button_Link (Action_Button action) +:+ nl +:+ nl)
            (Actions (Data_Body d)).

Definition textOutros (d : TemplateData) : string :=
  concatMap (fun text => text +:+ nl +:+ nl) (Outros (Data_Body d)).

(** The parenthesised details after an attachment name: nothing when both
    labels are empty, the one present label, or both joined by a comma. *)
Definition attachmentDetails (a : Attachment) : string :=
  match decide (Type_ a = ""), decide (Size a = "") with
  | left _, left _ => ""
  | right _, left _ => " (" +:+ Type_ a +:+ ")"
  | left _, right _ => " (" +:+ Size a +:+ ")"
  | right _, right _ => " (" +:+ Type_ a +:+ ", " +:+ Size a +:+ ")"
  end.

Definition attachmentLines (a : Attachment) : string :=
  "  - " +:+ Attachment_Name a +:+ attachmentDetails a +:+ nl
  +:+ "    " +:+ URL a +:+ nl.

Definition attachmentsSection (l : list Attachment) : string :=
  match l with
  | [] => ""
  | _ :: _ => "Attachments:" +:+ nl +:+ concatMap attachmentLines l +:+ nl
  end.

Definition textSignature (d : TemplateData) : string :=
  Signature (Data_Body d) +:+ "," +:+ nl +:+ Product_Name (Data_Product d) +:+ nl +:+ nl.

Definition textCopyright (d : TemplateData) : string :=
  Product_Copyright (Data_Product d).

(** Everything between the title and the attachments. *)
Definition textParagraphs (d : TemplateData) : string :=
  textIntros d +:+ textDictionary d +:+ textActions d +:+ textOutros d.

(** The closing block. *)
Definition textClosing (d : TemplateData) : string :=
  textSignature d +:+ textCopyright d.

Definition layoutPlainText (titlePresent : bool) (d : TemplateData) : string :=
  textGreeting d +:+ textTitle titlePresent d +:+ textParagraphs d
  +:+ attachmentsSection (Attachments (Data_Body d)) +:+ textClosing d.

(** What [GenerateHTML] makes of the result of the template execution. *)
Definition htmlResult (r : string * option error) : string * option error :=
  match r with
  | (_, Some e) => ("", Some ("failed to execute email template: " +:+ e))
  | (doc, None) => (doc, None)
  end.

(** The context both renderers resolve for a mailer, an email and a
    language. *)
Definition resolved (m : Mailer) (email : Email) (lang : string) : TemplateData :=
  returned (processTranslations email (NewLocalizer (bundle m) lang)) m.

(** The email with its display attachments replaced. *)
Definition withAttachments (email : Email) (l : list Attachment) : Email :=
  let body := Email_Body email in
  {| Email_Body :=
       {| Name := Name body; Intros := Intros body; Dictionary := Dictionary body;
          Body_Table := Body_Table body; Actions := Actions body;
          Outros := Outros body; Attachments := l; Greeting := Greeting body;
          Signature := Signature body; Title := Title body |};
     SMTPAttachments := SMTPAttachments email |}.

(** The mailer with the copyright of its product replaced. *)
Definition withCopyright (m : Mailer) (copyright : string) : Mailer :=
  {| bundle := bundle m;
     product := {| Product_Name := Product_Name (product m);
                   Product_Link := Product_Link (product m);
                   Product_Logo := Product_Logo (product m);
                   Product_Copyright := copyright |};
     theme := theme m; template := template m; customCSS := customCSS m |}.

(** A field without a default key: an empty value resolves to the empty
    text. *)
Definition emptyStaysEmpty (raw res : string) : Prop := raw = "" -> res = "".

(** The mailer [New] builds from a loaded template, or its panic. *)
Definition built (product : Product) (theme : Theme) (config : Config)
    (failure : string) (r : Template + error) : outcome Mailer :=
  match r with
  | inl t => Returns (mkMailer ∅ product theme t (CustomCSS config))
  | inr err => Panics (failure +:+ err)
  end.

(** ** Sample data *)

Definition emptyTable : Table := mkTable [] (mkColumns ∅ ∅).

(** A template that stamps the greeting, the name and the intros. *)
Definition sampleTemplate : Template :=
  {| Execute d :=
       ("<h1>" +:+ Greeting (Data_Body d) +:+ " " +:+ Name (Data_Body d) +:+ "</h1>"
        +:+ concatMap (fun p => "<p>" +:+ p +:+ "</p>") (Intros (Data_Body d)),
        None) |}.

(** A template whose execution fails after a part of the document has been
    written. *)
Definition failingTemplate : Template :=
  {| Execute d := ("<h1>" +:+ Greeting (Data_Body d),
                   Some "template: email:3:12: can't evaluate field Missing") |}.

Definition sampleProduct : Product :=
  mkProduct "Test Product" "https://example.com" "" "".

Definition sampleMailer : Mailer :=
  mkMailer ∅ sampleProduct DefaultTheme sampleTemplate "".

Definition englishCatalog : Bundle :=
  {[ "en" := {[ "greeting" := "Hello"; "signature" := "Regards";
                "email.blank" := "" ]} ]}.

Definition englishMailer : Mailer :=
  mkMailer englishCatalog sampleProduct DefaultTheme sampleTemplate "".

Definition sampleBody : Body :=
  mkBody "Test User" ["Please see attached file."] [] emptyTable [] [] [] "" "" "".

Definition reportAttachment : SMTPAttachment :=
  mkSMTPAttachment "report.pdf" [] "application/pdf".

(** An email whose title is a key the catalog maps to the empty text. *)
Definition blankTitleEmail : Email :=
  mkEmail (mkBody "Test User" [] [] emptyTable [] [] [] "" "" "email.blank") [].

(** A parser that accepts every text without an unclosed action and
    yields the template that writes the text as it is. *)
Definition sampleParse (text : string) : Template + error :=
  if Contains text "{{"
  then inr "template: email:1: unclosed action"
  else inl {| Execute d := (text, None) |}.

(** An embedded file system that holds the default skeleton only. *)
Definition sampleTemplatesFS : FS :=
  {| ReadFile path :=
       if decide (path = "templates/default.html")
       then inl "<html>default</html>"
       else inr ("open " +:+ path +:+ ": file does not exist") |}.

(** A caller's file system with one custom template. *)
Definition customFS : FS :=
  {| ReadFile path :=
       if decide (path = "templates/mytemplate.html")
       then inl "<html>custom file</html>"
       else inr ("open " +:+ path +:+ ": file does not exist") |}.

(** ** Views used by the further properties *)

(** The key [translate] looks up: the default key stands in for an empty
    key (the first statement of [translate]). *)
Definition effectiveKey (key defaultKey : string) : string :=
  if decide (key = "" ∧ defaultKey ≠ "") then defaultKey else key.

(** The context of an email whose every text is taken literally: only the
    empty greeting, signature and copyright are replaced by their default
    keys. *)
Definition literalContext (m : Mailer) (email : Email) : TemplateData :=
  let body := Email_Body email in
  {| Data_Product :=
       {| Product_Name := Product_Name (product m);
          Product_Link := Product_Link (product m);
          Product_Logo := Product_Logo (product m);
          Product_Copyright :=
            effectiveKey (Product_Copyright (product m)) "product.copyright" |};
     Data_Theme := theme m;
     Data_CustomCSS := customCSS m;
     Data_Body :=
       {| Name := Name body; Intros := Intros body; Dictionary := Dictionary body;
          Body_Table := Body_Table body; Actions := Actions body;
          Outros := Outros body; Attachments := Attachments body;
          Greeting := effectiveKey (Greeting body) "greeting";
          Signature := effectiveKey (Signature body) "signature";
          Title := Title body |} |}.

(** Every key a render of the email looks up, empty ones included. *)
Definition keysOf (m : Mailer) (email : Email) : list string :=
  let body := Email_Body email in
  effectiveKey (Greeting body) "greeting"
  :: effectiveKey (Signature body) "signature"
  :: Title body
  :: effectiveKey (Product_Copyright (product m)) "product.copyright"
  :: Intros body ++ Outros body ++ map Key (Dictionary body)
     ++ concat (map (map Key) (Data (Body_Table body)))
     ++ map Instructions (Actions body)
     ++ map (fun action => Text (Action_Button action)) (Actions body).

(** What [translate] reads of a lookup: the text when the error is nil. *)
Definition found (L : Localizer) (key : string) : option string :=
  match Localize L key with
  | (_, Some _) => None
  | (result, None) => Some result
  end.

(** The localizers of two catalogs and languages find the same text, or
    both fail, at every non-empty key of the list. *)
Definition agreeOn (b1 b2 : Bundle) (lang1 lang2 : string) (keys : list string) : Prop :=
  forall key, In key keys -> key ≠ "" ->
    found (NewLocalizer b1 lang1) key = found (NewLocalizer b2 lang2) key.

(** The mailer with another catalog. *)
Definition withBundle (m : Mailer) (b : Bundle) : Mailer :=
  {| bundle := b; product := product m; theme := theme m;
     template := template m; customCSS := customCSS m |}.

(** The mailer with another custom CSS. *)
Definition withCustomCSS (m : Mailer) (css : string) : Mailer :=
  {| bundle := bundle m; product := product m; theme := theme m;
     template := template m; customCSS := css |}.

(** What the plain text shows of an action: instruction, button text and
    link, without colour and style. *)
Definition actionText (action : Action) : string * string * string :=
  (Instructions action, Text (Action_Button action),
   Button_Link (Action_Button action)).

(** The body with another table and other actions. *)
Definition withTableAndActions (email : Email) (table : Table)
    (actions : list Action) : Email :=
  let body := Email_Body email in
  {| Email_Body :=
       {| Name := Name body; Intros := Intros body; Dictionary := Dictionary body;
          Body_Table := table; Actions := actions;
          Outros := Outros body; Attachments := Attachments body;
          Greeting := Greeting body; Signature := Signature body;
          Title := Title body |};
     SMTPAttachments := SMTPAttachments email |}.

(** Sample data of the further properties. *)

Definition welcomeEmail : Email :=
  mkEmail
    (mkBody "Jane" ["email.welcome.intro"]
            [mkEntry "email.username" "janesmith"]
            (mkTable [[mkEntry "Item" ""; mkEntry "Price" ""];
                      [mkEntry "" "Book"; mkEntry "" "9.99"; mkEntry "" "extra"]]
                     (mkColumns ∅ ∅))
            [mkAction "email.action.instructions"
                      (mkButton "email.action.button" "https://acme.com/verify" "#22BC66")
                      false]
            ["email.welcome.outro"] [] "" "signature" "email.welcome.title")
    [].

(** A catalog with entries the welcome email never asks for. *)
Definition otherCatalog : Bundle :=
  {[ "en" := {[ "unused.key" := "Unused" ]}; "zh" := {[ "greeting" := "您好" ]} ]}.

(** * Properties *)

(** ** Strings *)

Lemma append_assoc (a b c : string) : (a +:+ b) +:+ c = a +:+ (b +:+ c).
Proof.
  induction a as [|x a IH]; [reflexivity|].
  exact (f_equal (String x) IH).
Qed.

Lemma append_nil_r (a : string) : a +:+ "" = a.
Proof.
  induction a as [|x a IH]; [reflexivity|].
  exact (f_equal (String x) IH).
Qed.

(** A loop that only writes to the buffer appends the blocks in order. *)
Lemma foldl_WriteString {A} (f : A -> string) (l : list A) (buf : string) :
  foldl (fun buf x => WriteString buf (f x)) buf l = buf +:+ concatMap f l.
Proof.
  revert buf; induction l as [|x l IH]; intros buf; simpl.
  - by rewrite append_nil_r.
  - rewrite IH. unfold WriteString. by rewrite append_assoc.
Qed.

Lemma concatMap_map {A B} (g : A -> B) (f : B -> string) (l : list A) :
  concatMap f (map g l) = concatMap (fun x => f (g x)) l.
Proof. induction l as [|x l IH]; simpl; [done | by rewrite IH]. Qed.

(** ** The attachment loop writes the lines of the specification *)

(** Settle every decision of the goal from the hypotheses at hand. *)
Ltac settle_decisions :=
  repeat match goal with
  | |- context [decide ?P] =>
      first [ rewrite (decide_True (P := P)) by tauto
            | rewrite (decide_False (P := P)) by tauto ]
  end.

Lemma writeAttachment_lines (buf : string) (a : Attachment) :
  writeAttachment buf a = WriteString buf (attachmentLines a).
Proof.
  unfold writeAttachment, attachmentLines, attachmentDetails, WriteString.
  destruct (decide (Type_ a = "")) as [Ht|Ht], (decide (Size a = "")) as [Hs|Hs];
    settle_decisions; rewrite ?append_assoc; reflexivity.
Qed.

Lemma foldl_writeAttachment (l : list Attachment) (buf : string) :
  foldl writeAttachment buf l = buf +:+ concatMap attachmentLines l.
Proof.
  rewrite <- foldl_WriteString. revert buf.
  induction l as [|a l IH]; intros buf; simpl; [done|].
  by rewrite writeAttachment_lines, IH.
Qed.

(** ** Running a method *)

Lemma run_field {A B} (f : Mailer -> A) (k : A -> Method B) (m : Mailer) :
  (field f ≫= k) m = k (f m) m.
Proof. reflexivity. Qed.

Lemma run_mret {A} (a : A) (m : Mailer) : (mret a : Method A) m = (a, m).
Proof. reflexivity. Qed.

Lemma run_bind {A B} (c : Method A) (k : A -> Method B) (m : Mailer) :
  (c ≫= k) m = k (fst (c m)) (snd (c m)).
Proof. unfold mbind, method_bind. by destruct (c m). Qed.

(** ** Plain text is a layout of the resolved context *)

Lemma resolved_unfold (m : Mailer) (email : Email) (lang : string) :
  resolved m email lang =
  let localizer := NewLocalizer (bundle m) lang in
  let body := Email_Body email in
  {| Data_Product :=
       {| Product_Name := Product_Name (product m);
          Product_Link := Product_Link (product m);
          Product_Logo := Product_Logo (product m);
          Product_Copyright :=
            translate localizer (Product_Copyright (product m)) "product.copyright" |};
     Data_Theme := theme m;
     Data_CustomCSS := customCSS m;
     Data_Body :=
       {| Name := Name body;
          Greeting := translate localizer (Greeting body) "greeting";
          Signature := translate localizer (Signature body) "signature";
          Title := translate localizer (Title body) "";
          Intros := map (fun intro => translate localizer intro "") (Intros body);
          Dictionary :=
            map (fun entry => {| Key := translate localizer (Key entry) "";
                                 Value := Value entry |}) (Dictionary body);
          Body_Table :=
            {| Data :=
                 map (map (fun cell => {| Key := translate localizer (Key cell) "";
                                          Value := Value cell |}))
                     (Data (Body_Table body));
               Table_Columns := Table_Columns (Body_Table body) |};
          Actions :=
            map (fun action =>
                   {| Instructions := translate localizer (Instructions action) "";
                      Action_Button :=
                        {| Text := translate localizer (Text (Action_Button action)) "";
                           Button_Link := Button_Link (Action_Button action);
                           Color := Color (Action_Button action) |};
                      InvertedButton := InvertedButton action |}) (Actions body);
          Outros := map (fun outro => translate localizer outro "") (Outros body);
          Attachments := Attachments body |} |}.
Proof.
  unfold resolved, returned, processTranslations.
  rewrite !run_field, run_mret; cbn.
  by rewrite map_id.
Qed.

Local Arguments WriteString : simpl never.
Local Arguments foldl : simpl never.
Local Arguments String.append : simpl never.
Local Arguments concatMap : simpl never.

(** A guard [len(s) > 0] is a case distinction on the slice. *)
Lemma if_nonempty {A B} (l : list A) (x y : B) :
  (if decide (0 < length l) then x else y) =
  match l with [] => y | _ :: _ => x end.
Proof.
  destruct l; destruct (decide _) as [H|H]; simpl in H; (reflexivity || lia).
Qed.

Lemma if_bool_decide {B} (P : Prop) `{Decision P} (x y : B) :
  (if decide P then x else y) = if bool_decide P then x else y.
Proof. unfold bool_decide, decide. by destruct H. Qed.

Lemma append_nil_l (a : string) : "" +:+ a = a.
Proof. reflexivity. Qed.

Lemma GeneratePlainText_layout (m : Mailer) (email : Email) (lang : string) :
  returned (GeneratePlainText email lang) m =
  (layoutPlainText (bool_decide (Title (Email_Body email) ≠ ""))
                   (resolved m email lang), None).
Proof.
  rewrite resolved_unfold.
  unfold returned, GeneratePlainText.
  rewrite !run_field, run_mret. cbv zeta. cbn [fst].
  f_equal.
  rewrite !if_nonempty, if_bool_decide.
  unfold layoutPlainText, textGreeting, textTitle, textParagraphs, textIntros,
    textDictionary, textActions, textOutros, textClosing, textSignature,
    textCopyright, attachmentsSection.
  cbn [Data_Body Data_Product Name Greeting Signature Title Intros Dictionary
       Actions Outros Attachments Product_Name Product_Copyright].
  rewrite !concatMap_map.
  cbn [Key Value Instructions Action_Button Text Button_Link].
  destruct (bool_decide (Title (Email_Body email) ≠ ""));
    destruct (Dictionary (Email_Body email)) as [|e dict];
    destruct (Attachments (Email_Body email)) as [|a atts];
    rewrite ?foldl_WriteString, ?foldl_writeAttachment;
    unfold WriteString;
    rewrite ?append_assoc, ?append_nil_l, ?append_nil_r; reflexivity.
Qed.

Lemma GenerateHTML_result (m : Mailer) (email : Email) (lang : string) :
  returned (GenerateHTML email lang) m =
  htmlResult (Execute (template m) (resolved m email lang)).
Proof.
  unfold resolved, returned, GenerateHTML.
  rewrite run_field, run_bind.
  change (snd (processTranslations email (NewLocalizer (bundle m) lang) m)) with m.
  rewrite run_field. unfold htmlResult.
  destruct (Execute _ _) as [doc [e|]]; reflexivity.
Qed.

(** ** The translator *)

Lemma translate_nonempty (L : Localizer) (key defaultKey : string) :
  key ≠ "" ->
  translate L key defaultKey =
  match Localize L key with
  | (_, Some _) => key
  | (result, None) => result
  end.
Proof.
  intros Hk. unfold translate.
  rewrite (decide_False (P := key = "" ∧ defaultKey ≠ "")) by tauto.
  rewrite (decide_False (P := key = "")) by done.
  by destruct (Localize L key) as [result [e|]].
Qed.

Lemma translate_empty (L : Localizer) : translate L "" "" = "".
Proof. reflexivity. Qed.

Lemma translate_default (L : Localizer) (defaultKey : string) :
  translate L "" defaultKey = translate L defaultKey "".
Proof.
  destruct (decide (defaultKey = "")) as [->|Hd]; [reflexivity|].
  rewrite (translate_nonempty L defaultKey "" Hd).
  unfold translate.
  rewrite (decide_True (P := "" = "" ∧ defaultKey ≠ "")) by done.
  rewrite (decide_False (P := defaultKey = "")) by done.
  by destruct (Localize L defaultKey) as [result [e|]].
Qed.

(** C1. The translator is a total function that follows the four-step
    policy: an empty key is replaced by a non-empty default key; a key that
    is still empty resolves to the empty text whatever the localizer is, so
    no lookup decides it; a successful lookup yields the localized text; a
    failed lookup yields the key itself. For the catalog this means: an
    entry of the key under the locale is returned, a missing entry returns
    the key, and with no catalog loaded every key resolves to itself. *)
Theorem translate_policy :
  (forall L defaultKey,
     defaultKey ≠ "" -> translate L "" defaultKey = translate L defaultKey "") ∧
  (forall L, translate L "" "" = "") ∧
  (forall L key defaultKey text,
     key ≠ "" -> Localize L key = (text, None) ->
     translate L key defaultKey = text) ∧
  (forall L key defaultKey text err,
     key ≠ "" -> Localize L key = (text, Some err) ->
     translate L key defaultKey = key) ∧
  (forall (b : Bundle) lang key defaultKey text,
     key ≠ "" -> lookupMessage b lang key = Some text ->
     translate (NewLocalizer b lang) key defaultKey = text) ∧
  (forall (b : Bundle) lang key defaultKey,
     key ≠ "" -> lookupMessage b lang key = None ->
     translate (NewLocalizer b lang) key defaultKey = key) ∧
  (forall key lang, translate (NewLocalizer ∅ lang) key "" = key).
Proof.
  repeat apply conj.
  - intros L dk _. apply translate_default.
  - apply translate_empty.
  - intros L key dk text Hk HL. by rewrite translate_nonempty, HL.
  - intros L key dk text err Hk HL. by rewrite translate_nonempty, HL.
  - intros b lang key dk text Hk Hb.
    rewrite translate_nonempty by done. cbn. by rewrite Hb.
  - intros b lang key dk Hk Hb.
    rewrite translate_nonempty by done. cbn. by rewrite Hb.
  - intros key lang. destruct (decide (key = "")) as [->|Hk]; [reflexivity|].
    rewrite translate_nonempty by done. cbn.
    unfold lookupMessage. by rewrite lookup_empty.
Qed.

Lemma translate_policy_witness :
  translate (NewLocalizer englishCatalog "en") "" "greeting" = "Hello" ∧
  translate (NewLocalizer englishCatalog "en") "signature" "" = "Regards" ∧
  translate (NewLocalizer englishCatalog "en") "custom.missing.key" "greeting"
    = "custom.missing.key" ∧
  translate (NewLocalizer englishCatalog "en") "A literal sentence." ""
    = "A literal sentence.".
Proof.
  destruct translate_policy as (Hdefault & _ & _ & _ & Hhit & Hmiss & _).
  repeat apply conj.
  - rewrite (Hdefault (NewLocalizer englishCatalog "en") "greeting") by done.
    by apply Hhit.
  - by apply Hhit.
  - by apply Hmiss.
  - by apply Hmiss.
Defined.

(** The scenarios of the specification: an empty greeting with the catalog
    entry ["greeting"] loaded, and a greeting key that no catalog holds. *)
Example greeting_scenarios :
  let email g := mkEmail (mkBody "Ann" [] [] emptyTable [] [] [] g "" "") [] in
  String.prefix ("Hello Ann," +:+ nl)
    (fst (returned (GeneratePlainText (email "") "en") englishMailer)) = true ∧
  String.prefix ("custom.missing.key Ann," +:+ nl)
    (fst (returned (GeneratePlainText (email "custom.missing.key") "en") sampleMailer))
  = true.
Proof. split; vm_compute; reflexivity. Qed.

(** ** Transport attachments *)

(** C2. Two emails with the same body, whatever their transport
    attachments are, render to the same HTML result and to the same
    plain-text result under every mailer and language: file names, content
    bytes and MIME types of transport attachments have no influence on
    either document. *)
Theorem transport_attachments_invisible
    (m : Mailer) (e1 e2 : Email) (lang : string) :
  Email_Body e1 = Email_Body e2 ->
  returned (GenerateHTML e1 lang) m = returned (GenerateHTML e2 lang) m ∧
  returned (GeneratePlainText e1 lang) m = returned (GeneratePlainText e2 lang) m.
Proof.
  intros Hbody. split.
  - rewrite !GenerateHTML_result. do 2 f_equal.
    rewrite !resolved_unfold. cbv zeta. by rewrite Hbody.
  - rewrite !GeneratePlainText_layout, !resolved_unfold. cbv zeta.
    by rewrite Hbody.
Qed.

Lemma transport_attachments_invisible_witness :
  returned (GenerateHTML (mkEmail sampleBody [reportAttachment]) "en") sampleMailer
  = returned (GenerateHTML (mkEmail sampleBody []) "en") sampleMailer ∧
  returned (GeneratePlainText (mkEmail sampleBody [reportAttachment]) "en") sampleMailer
  = returned (GeneratePlainText (mkEmail sampleBody []) "en") sampleMailer.
Proof.
  apply (transport_attachments_invisible sampleMailer
           (mkEmail sampleBody [reportAttachment]) (mkEmail sampleBody []) "en").
  reflexivity.
Defined.

(** The check of [TestSMTPAttachments]: the file name of the transport
    attachment is in neither document. *)
Example report_not_rendered :
  Contains (fst (returned (GenerateHTML (mkEmail sampleBody [reportAttachment]) "en")
                          sampleMailer)) "report.pdf" = false ∧
  Contains (fst (returned (GeneratePlainText (mkEmail sampleBody [reportAttachment]) "en")
                          sampleMailer)) "report.pdf" = false.
Proof. split; vm_compute; reflexivity. Qed.

(** ** Cross-format consistency *)

(** C3. Both renderers consume one resolved context: the HTML result is
    the template executed on it, and the plain-text document is a layout of
    its strings that consults no localizer. Hence greeting, signature,
    title, intros, outros, dictionary keys, action instructions, button
    texts and copyright are the same strings in both documents; the
    documents differ in layout only. *)
Theorem renderers_share_resolved_strings
    (m : Mailer) (email : Email) (lang : string) :
  returned (GenerateHTML email lang) m
  = htmlResult (Execute (template m) (resolved m email lang)) ∧
  returned (GeneratePlainText email lang) m
  = (layoutPlainText (bool_decide (Title (Email_Body email) ≠ ""))
                     (resolved m email lang), None).
Proof.
  split; [apply GenerateHTML_result | apply GeneratePlainText_layout].
Qed.

(** ** Plain text never fails *)

(** C4. [GeneratePlainText] returns a document and the nil error for every
    mailer, email and language. For a body that holds a name only, the
    document is the greeting line, a blank line, the signature block and
    the copyright. *)
Theorem GeneratePlainText_never_fails
    (m : Mailer) (email : Email) (lang : string) :
  (exists doc, returned (GeneratePlainText email lang) m = (doc, None)) ∧
  snd (returned (GeneratePlainText email lang) m) = None ∧
  (forall name table smtp,
     let localizer := NewLocalizer (bundle m) lang in
     returned (GeneratePlainText
                 (mkEmail (mkBody name [] [] table [] [] [] "" "" "") smtp) lang) m
     = (translate localizer "" "greeting" +:+ " " +:+ name +:+ "," +:+ nl +:+ nl
        +:+ translate localizer "" "signature" +:+ "," +:+ nl
        +:+ Product_Name (product m) +:+ nl +:+ nl
        +:+ translate localizer (Product_Copyright (product m)) "product.copyright",
        None)).
Proof.
  repeat apply conj.
  - eexists. apply GeneratePlainText_layout.
  - by rewrite GeneratePlainText_layout.
  - intros name table smtp localizer.
    rewrite GeneratePlainText_layout, resolved_unfold.
    unfold layoutPlainText, textGreeting, textTitle, textParagraphs, textIntros,
      textDictionary, textActions, textOutros, textClosing, textSignature,
      textCopyright, attachmentsSection; cbn.
    rewrite ?append_assoc. reflexivity.
Qed.

(** The check of [TestEmptyEmail] on the plain-text side. *)
Example empty_email_text :
  returned (GeneratePlainText
              (mkEmail (mkBody "Test User" [] [] emptyTable [] [] [] "" "" "") []) "en")
           sampleMailer
  = ("greeting Test User," +:+ nl +:+ nl +:+ "signature," +:+ nl +:+ "Test Product"
     +:+ nl +:+ nl +:+ "product.copyright", None).
Proof. vm_compute. reflexivity. Qed.

(** ** The title line *)

Lemma layout_sections (present : bool) (d : TemplateData) :
  layoutPlainText present d
  = textGreeting d +:+ textTitle present d +:+ textParagraphs d
    +:+ attachmentsSection (Attachments (Data_Body d)) +:+ textClosing d.
Proof. reflexivity. Qed.

Lemma resolved_title (m : Mailer) (email : Email) (lang : string) :
  Title (Data_Body (resolved m email lang))
  = translate (NewLocalizer (bundle m) lang) (Title (Email_Body email)) "".
Proof. by rewrite resolved_unfold. Qed.

Lemma resolved_attachments (m : Mailer) (email : Email) (lang : string) :
  Attachments (Data_Body (resolved m email lang)) = Attachments (Email_Body email).
Proof. by rewrite resolved_unfold. Qed.

(** C5, as stated, fails: the catalog may map the title key to the empty
    text. The resolved title is then empty, yet the document carries an
    empty title line and its blank line between the greeting and the
    signature block, so it is not the layout without a title line. *)
Lemma title_line_for_empty_resolved_title :
  let d := resolved englishMailer blankTitleEmail "en" in
  let doc := fst (returned (GeneratePlainText blankTitleEmail "en") englishMailer) in
  Title (Data_Body d) = "" ∧
  doc = "Hello Test User," +:+ nl +:+ nl
        +:+ nl +:+ nl
        +:+ "Regards," +:+ nl +:+ "Test Product" +:+ nl +:+ nl +:+ "product.copyright" ∧
  doc ≠ layoutPlainText (bool_decide (Title (Data_Body d) ≠ "")) d.
Proof. vm_compute. repeat apply conj; [reflexivity | reflexivity | discriminate]. Qed.

(** C5, amended. The title line, that is the resolved title followed by a
    blank line, is written between the greeting and the paragraphs if and
    only if the title the caller supplied is non-empty; with an empty
    supplied title neither the line nor its blank line is written. A
    non-empty resolved title is always written, since it comes from a
    non-empty supplied title. *)
Theorem title_line_iff_title_supplied
    (m : Mailer) (email : Email) (lang : string) :
  let d := resolved m email lang in
  fst (returned (GeneratePlainText email lang) m)
  = textGreeting d
    +:+ (if decide (Title (Email_Body email) = "") then ""
         else Title (Data_Body d) +:+ nl +:+ nl)
    +:+ textParagraphs d +:+ attachmentsSection (Attachments (Data_Body d))
    +:+ textClosing d ∧
  (Title (Data_Body d) ≠ "" -> Title (Email_Body email) ≠ "").
Proof.
  intros d. split.
  - rewrite GeneratePlainText_layout, layout_sections. cbn [fst]. fold d.
    unfold textTitle.
    destruct (decide (Title (Email_Body email) = "")) as [Ht|Ht].
    + by rewrite bool_decide_eq_false_2 by tauto.
    + by rewrite bool_decide_eq_true_2 by done.
  - intros Hres Hraw. apply Hres. subst d.
    rewrite resolved_title, Hraw. apply translate_empty.
Qed.

Lemma title_line_iff_title_supplied_witness :
  let email :=
    mkEmail (mkBody "Test User" [] [] emptyTable [] [] [] "" "" "Welcome") [] in
  Title (Data_Body (resolved englishMailer email "en")) ≠ "" ∧
  Title (Email_Body email) ≠ "".
Proof.
  intros email.
  assert (H : Title (Data_Body (resolved englishMailer email "en")) ≠ "")
    by (vm_compute; discriminate).
  split; [exact H|].
  exact (proj2 (title_line_iff_title_supplied englishMailer email "en") H).
Defined.

(** ** Default keys *)

Lemma Forall2_map_r_same {A B} (R : A -> B -> Prop) (f : A -> B) (l : list A) :
  (forall x, R x (f x)) -> Forall2 R l (map f l).
Proof. intros HR. induction l; simpl; constructor; auto. Qed.

(** C6. An empty greeting renders exactly as the key ["greeting"], an
    empty signature as the key ["signature"], and an empty product
    copyright as the key ["product.copyright"], in the HTML result and in
    the plain-text result. The other translatable fields (title, intros,
    outros, dictionary keys, table cell keys, action instructions, button
    texts) have no default key: under every catalog an empty value resolves
    to the empty text in the context from which both documents are made. *)
Theorem default_keys
    (m : Mailer) (lang name : string) (intros : list string) (dict : list Entry)
    (table : Table) (actions : list Action) (outros : list string)
    (atts : list Attachment) (greeting sig title : string)
    (smtp : list SMTPAttachment) :
  let email g s t :=
    mkEmail (mkBody name intros dict table actions outros atts g s t) smtp in
  let render (m : Mailer) (e : Email) :=
    (returned (GenerateHTML e lang) m, returned (GeneratePlainText e lang) m) in
  let d := resolved m (email greeting sig title) lang in
  let keyStaysEmpty (raw res : Entry) := emptyStaysEmpty (Key raw) (Key res) in
  render m (email "" sig title) = render m (email "greeting" sig title) ∧
  render m (email greeting "" title) = render m (email greeting "signature" title) ∧
  render (withCopyright m "") (email greeting sig title)
  = render (withCopyright m "product.copyright") (email greeting sig title) ∧
  render m (email greeting sig title)
  = (htmlResult (Execute (template m) d),
     (layoutPlainText (bool_decide (title ≠ "")) d, None)) ∧
  emptyStaysEmpty title (Title (Data_Body d)) ∧
  Forall2 emptyStaysEmpty intros (Intros (Data_Body d)) ∧
  Forall2 emptyStaysEmpty outros (Outros (Data_Body d)) ∧
  Forall2 keyStaysEmpty dict (Dictionary (Data_Body d)) ∧
  Forall2 (Forall2 keyStaysEmpty) (Data table) (Data (Body_Table (Data_Body d))) ∧
  Forall2 (fun raw res =>
             emptyStaysEmpty (Instructions raw) (Instructions res) ∧
             emptyStaysEmpty (Text (Action_Button raw)) (Text (Action_Button res)))
          actions (Actions (Data_Body d)).
Proof.
  intros email render d keyStaysEmpty.
  assert (Hempty : forall L raw, emptyStaysEmpty raw (translate L raw "")).
  { intros L raw ->. apply translate_empty. }
  assert (Hsame : forall L dk, translate L "" dk = translate L dk dk).
  { intros L dk. rewrite translate_default.
    destruct (decide (dk = "")) as [->|Hd]; [reflexivity|].
    by rewrite !translate_nonempty. }
  subst render d; cbv beta.
  rewrite !GenerateHTML_result, !GeneratePlainText_layout, !resolved_unfold.
  subst email; cbv beta zeta;
    cbn [Email_Body Name Intros Dictionary Body_Table Actions Outros Attachments
         Greeting Signature Title Data_Body Data Product_Copyright product
         withCopyright bundle theme template customCSS Product_Name Product_Link
         Product_Logo].
  rewrite !Hsame.
  repeat apply conj; try reflexivity.
  - apply Hempty.
  - apply Forall2_map_r_same. intros x. apply Hempty.
  - apply Forall2_map_r_same. intros x. apply Hempty.
  - apply Forall2_map_r_same. intros x. apply Hempty.
  - apply Forall2_map_r_same. intros row.
    apply Forall2_map_r_same. intros x. apply Hempty.
  - apply Forall2_map_r_same. intros x. split; apply Hempty.
Qed.

(** ** The attachment section of the plain text *)

(** C7. The plain-text document is the text up to the outros, then the
    attachment section, then the signature block and the copyright. For an
    empty list the section is empty and the document is the one of the same
    email without the section. Otherwise the section is the header line
    ["Attachments:"], then for each attachment in order the line
    ["  - <Name>"] with its details and the line ["    <URL>"], then one
    blank line; the details are absent when type and size are both empty,
    hold the one non-empty label in parentheses, or both labels joined by
    [", "] in parentheses. *)
Theorem plain_text_attachments (m : Mailer) (email : Email) (lang : string) :
  let d := resolved m email lang in
  let head :=
    textGreeting d +:+ textTitle (bool_decide (Title (Email_Body email) ≠ "")) d
    +:+ textParagraphs d in
  let atts := Attachments (Email_Body email) in
  fst (returned (GeneratePlainText email lang) m)
  = head +:+ attachmentsSection atts +:+ textClosing d ∧
  fst (returned (GeneratePlainText (withAttachments email []) lang) m)
  = head +:+ textClosing d ∧
  attachmentsSection atts
  = match atts with
    | [] => ""
    | _ :: _ =>
        "Attachments:" +:+ nl
        +:+ concatMap (fun a => "  - " +:+ Attachment_Name a +:+ attachmentDetails a
                                +:+ nl +:+ "    " +:+ URL a +:+ nl) atts
        +:+ nl
    end ∧
  Forall (fun a =>
            attachmentDetails a
            = if decide (Type_ a = "" ∧ Size a = "") then ""
              else " (" +:+ Type_ a
                   +:+ (if decide (Type_ a ≠ "" ∧ Size a ≠ "") then ", " else "")
                   +:+ Size a +:+ ")") atts.
Proof.
  intros d head atts. repeat apply conj.
  - rewrite GeneratePlainText_layout, layout_sections. cbn [fst]. fold d.
    subst d head atts. rewrite resolved_attachments.
    by rewrite !append_assoc.
  - rewrite GeneratePlainText_layout, layout_sections. cbn [fst].
    rewrite resolved_attachments.
    subst d head. rewrite !resolved_unfold. cbv zeta.
    destruct email as [[name intros dict table actions outros atts' g s t] smtp].
    cbn. rewrite ?append_assoc. reflexivity.
  - reflexivity.
  - apply Forall_forall. intros a _. unfold attachmentDetails.
    destruct (decide (Type_ a = "")) as [Ht|Ht], (decide (Size a = "")) as [Hs|Hs];
      settle_decisions; rewrite ?Ht, ?Hs; reflexivity.
Qed.

(** The attachment lines of [TestAttachments]-like data, evaluated. *)
Example attachments_text :
  attachmentsSection
    [mkAttachment "a.pdf" "https://x/a" "2.5 MB" "PDF Document";
     mkAttachment "b.png" "https://x/b" "" "Image";
     mkAttachment "c.txt" "https://x/c" "1 KB" "";
     mkAttachment "d" "https://x/d" "" ""]
  = "Attachments:" +:+ nl
    +:+ "  - a.pdf (PDF Document, 2.5 MB)" +:+ nl +:+ "    https://x/a" +:+ nl
    +:+ "  - b.png (Image)" +:+ nl +:+ "    https://x/b" +:+ nl
    +:+ "  - c.txt (1 KB)" +:+ nl +:+ "    https://x/c" +:+ nl
    +:+ "  - d" +:+ nl +:+ "    https://x/d" +:+ nl
    +:+ nl.
Proof. vm_compute. reflexivity. Qed.

(** ** Errors of the HTML renderer *)

(** C8. [GenerateHTML] returns an error exactly when the execution of the
    template on the resolved context returns one. Its document is then the
    empty string, whatever the execution had written, and its error wraps
    the one of the execution; when the execution succeeds, the written
    document is returned with the nil error. *)
Theorem GenerateHTML_error_iff_execute_fails
    (m : Mailer) (email : Email) (lang : string) :
  let execution := Execute (template m) (resolved m email lang) in
  let result := returned (GenerateHTML email lang) m in
  (snd result ≠ None <-> snd execution ≠ None) ∧
  (forall e, snd execution = Some e ->
             result = ("", Some ("failed to execute email template: " +:+ e))) ∧
  (snd execution = None -> result = (fst execution, None)).
Proof.
  intros execution result. subst result. rewrite GenerateHTML_result.
  fold execution. destruct execution as [doc [e|]]; cbn.
  - split; [done | split; [by intros ? [= <-] | done]].
  - split; [done | split; done].
Qed.

Lemma GenerateHTML_error_iff_execute_fails_witness :
  let m := mkMailer ∅ sampleProduct DefaultTheme failingTemplate "" in
  returned (GenerateHTML (mkEmail sampleBody []) "en") m
  = ("", Some ("failed to execute email template: "
               +:+ "template: email:3:12: can't evaluate field Missing")) ∧
  returned (GenerateHTML (mkEmail sampleBody []) "en") sampleMailer
  = ("<h1>greeting Test User</h1><p>Please see attached file.</p>", None).
Proof.
  intros m. split.
  - apply (proj1 (proj2 (GenerateHTML_error_iff_execute_fails
                           m (mkEmail sampleBody []) "en"))).
    reflexivity.
  - apply (proj2 (proj2 (GenerateHTML_error_iff_execute_fails
                           sampleMailer (mkEmail sampleBody []) "en"))).
    reflexivity.
Defined.

(** ** Rendering leaves the mailer as it was *)

(** A method that loads a catalog stores to the receiver. *)
Example load_changes_bundle :
  let fsys := {| ReadMessages path := inl ("en", {[ "greeting" := "Hello" ]}) |} in
  bundle (receiver_after (LoadMessageFileFS fsys "locales/en.json") sampleMailer)
  = {[ "en" := {[ "greeting" := "Hello" ]} ]} ∧
  bundle sampleMailer = ∅.
Proof. split; [vm_compute|]; reflexivity. Qed.

(** C9. Neither render call stores to the receiver: after [GenerateHTML]
    and after [GeneratePlainText] the mailer, and so its catalog, product,
    theme, template and custom CSS, is the one before the call. *)
Theorem render_preserves_mailer (m : Mailer) (email : Email) (lang : string) :
  let afterHTML := receiver_after (GenerateHTML email lang) m in
  let afterText := receiver_after (GeneratePlainText email lang) m in
  afterHTML = m ∧ afterText = m ∧
  (bundle afterHTML, product afterHTML, theme afterHTML, template afterHTML,
   customCSS afterHTML)
  = (bundle m, product m, theme m, template m, customCSS m) ∧
  (bundle afterText, product afterText, theme afterText, template afterText,
   customCSS afterText)
  = (bundle m, product m, theme m, template m, customCSS m).
Proof.
  intros afterHTML afterText.
  assert (HH : afterHTML = m).
  { subst afterHTML. unfold receiver_after, GenerateHTML.
    rewrite run_field, run_bind.
    change (snd (processTranslations email (NewLocalizer (bundle m) lang) m)) with m.
    rewrite run_field.
    by destruct (Execute _ _) as [doc [e|]]. }
  assert (HT : afterText = m).
  { subst afterText. unfold receiver_after, GeneratePlainText.
    by rewrite !run_field, run_mret. }
  by rewrite HH, HT.
Qed.

(** ** Template selection in [New] *)

(** C10. [New] selects the template by a fixed priority over the
    configuration its options leave: a pre-parsed custom template is used
    as it is; otherwise a non-empty template text is parsed; otherwise a
    file system together with a non-empty path is read and parsed; and only
    when none of the three is supplied, the embedded
    [templates/default.html] is read and parsed. A read or parse failure of
    the selected source makes [New] panic. *)
Theorem New_template_priority
    (Parse : string -> Template + error) (templatesFS : FS)
    (product : Product) (theme : Theme) (opts : list Option) :
  let config := applyOptions opts in
  let new := New Parse templatesFS product theme opts in
  (forall t,
     CustomTemplate config = Some t ->
     new = Returns (mkMailer ∅ product theme t (CustomCSS config))) ∧
  (CustomTemplate config = None ->
   CustomTemplateText config ≠ "" ->
   new = built product theme config "failed to parse custom template: "
               (Parse (CustomTemplateText config))) ∧
  (forall fsys,
     CustomTemplate config = None ->
     CustomTemplateText config = "" ->
     CustomTemplateFS config = Some fsys ->
     CustomTemplatePath config ≠ "" ->
     new = match ReadFile fsys (CustomTemplatePath config) with
           | inr err => Panics ("failed to read custom template file: " +:+ err)
           | inl content =>
               built product theme config "failed to parse custom template file: "
                     (Parse content)
           end) ∧
  (CustomTemplate config = None ->
   CustomTemplateText config = "" ->
   CustomTemplateFS config = None ∨ CustomTemplatePath config = "" ->
   new = match ReadFile templatesFS "templates/default.html" with
         | inr err => Panics ("failed to read default template: " +:+ err)
         | inl content =>
             built product theme config "failed to parse default template: "
                   (Parse content)
         end).
Proof.
  intros config new. subst new. unfold New. fold config.
  repeat apply conj.
  - intros t ->. reflexivity.
  - intros -> Htext.
    destruct (decide (CustomTemplateText config ≠ "")) as [_|]; [|done].
    by destruct (Parse _).
  - intros fsys -> Htext -> Hpath.
    destruct (decide (CustomTemplateText config ≠ "")) as [|_]; [done|].
    destruct (decide (CustomTemplatePath config ≠ "")) as [_|]; [|done].
    destruct (ReadFile fsys _); [|done]. by destruct (Parse _).
  - intros -> Htext Hnone.
    destruct (decide (CustomTemplateText config ≠ "")) as [|_]; [done|].
    destruct (CustomTemplateFS config) as [fsys|],
             (decide (CustomTemplatePath config ≠ "")) as [Hp|Hp];
      try (destruct Hnone as [Hn|Hn]; [discriminate Hn | contradiction]);
      (destruct (ReadFile templatesFS _); [|done]; by destruct (Parse _)).
Qed.

Lemma New_template_priority_witness :
  let new := New sampleParse sampleTemplatesFS sampleProduct DefaultTheme in
  let writes text :=
    Returns (mkMailer ∅ sampleProduct DefaultTheme
                      {| Execute d := (text, None) |} "") in
  new [WithCustomTemplateFile (Some customFS) "templates/mytemplate.html";
       WithCustomTemplateString "<p>inline</p>";
       WithCustomTemplate (Some sampleTemplate); WithCustomCSS ".a{}"]
  = Returns (mkMailer ∅ sampleProduct DefaultTheme sampleTemplate ".a{}") ∧
  new [WithCustomTemplateFile (Some customFS) "templates/mytemplate.html";
       WithCustomTemplateString "<p>inline</p>"]
  = writes "<p>inline</p>" ∧
  new [WithCustomTemplateFile (Some customFS) "templates/mytemplate.html"]
  = writes "<html>custom file</html>" ∧
  new [WithCustomTemplateFile (Some customFS) ""] = writes "<html>default</html>" ∧
  new [] = writes "<html>default</html>".
Proof.
  intros new writes. subst new.
  repeat apply conj.
  - destruct (New_template_priority sampleParse sampleTemplatesFS sampleProduct
                DefaultTheme
                [WithCustomTemplateFile (Some customFS) "templates/mytemplate.html";
                 WithCustomTemplateString "<p>inline</p>";
                 WithCustomTemplate (Some sampleTemplate); WithCustomCSS ".a{}"])
      as (Hparsed & _).
    exact (Hparsed sampleTemplate eq_refl).
  - destruct (New_template_priority sampleParse sampleTemplatesFS sampleProduct
                DefaultTheme
                [WithCustomTemplateFile (Some customFS) "templates/mytemplate.html";
                 WithCustomTemplateString "<p>inline</p>"])
      as (_ & Htext & _).
    apply Htext; [reflexivity | discriminate].
  - destruct (New_template_priority sampleParse sampleTemplatesFS sampleProduct
                DefaultTheme
                [WithCustomTemplateFile (Some customFS) "templates/mytemplate.html"])
      as (_ & _ & Hfile & _).
    apply (Hfile customFS); [reflexivity | reflexivity | reflexivity | discriminate].
  - destruct (New_template_priority sampleParse sampleTemplatesFS sampleProduct
                DefaultTheme [WithCustomTemplateFile (Some customFS) ""])
      as (_ & _ & _ & Hdefault).
    apply Hdefault; [reflexivity | reflexivity | right; reflexivity].
  - destruct (New_template_priority sampleParse sampleTemplatesFS sampleProduct
                DefaultTheme [])
      as (_ & _ & _ & Hdefault).
    apply Hdefault; [reflexivity | reflexivity | left; reflexivity].
Defined.

(** * Further properties of the package *)

(** ** The translator, seen through the key it looks up *)

Lemma effectiveKey_empty (key defaultKey : string) :
  effectiveKey key defaultKey = "" <-> key = "" ∧ defaultKey = "".
Proof.
  unfold effectiveKey.
  destruct (decide (key = "" ∧ defaultKey ≠ "")) as [[Hk Hd]|H].
  - split; [intros Hd'; contradiction | intros [_ Hd']; exact Hd'].
  - split; [intros Hk; split; [exact Hk|] | tauto].
    destruct (decide (defaultKey = "")) as [Hd|Hd]; [exact Hd | tauto].
Qed.

Lemma translate_effectiveKey (L : Localizer) (key defaultKey : string) :
  translate L key defaultKey =
  if decide (effectiveKey key defaultKey = "") then ""
  else match Localize L (effectiveKey key defaultKey) with
       | (_, Some _) => effectiveKey key defaultKey
       | (result, None) => result
       end.
Proof.
  unfold translate. fold (effectiveKey key defaultKey).
  case_decide; [done|]. by destruct (Localize L _) as [result [e|]].
Qed.

(** X1. The translator yields the empty text in two cases only: key and
    default key are both empty, or the lookup of the key succeeds with the
    empty text. A failed lookup never blanks a field. *)
Theorem translate_empty_iff (L : Localizer) (key defaultKey : string) :
  translate L key defaultKey = "" <->
  (key = "" ∧ defaultKey = "") ∨
  Localize L (effectiveKey key defaultKey) = ("", None).
Proof.
  rewrite translate_effectiveKey, <- effectiveKey_empty.
  case_decide as Hk; [tauto|].
  destruct (Localize L _) as [result [e|]]; split.
  - intros Hr. by destruct Hk.
  - intros [?|[=]]. by destruct Hk.
  - intros ->. by right.
  - intros [?|[= ->]]; [by destruct Hk | done].
Qed.

(** Two localizers that answer alike at the looked-up key translate
    alike. *)
Lemma translate_agree (L1 L2 : Localizer) (key defaultKey : string) :
  (effectiveKey key defaultKey ≠ "" ->
   found L1 (effectiveKey key defaultKey) = found L2 (effectiveKey key defaultKey)) ->
  translate L1 key defaultKey = translate L2 key defaultKey.
Proof.
  intros H. rewrite !translate_effectiveKey.
  case_decide as Hk; [done|]. specialize (H Hk). unfold found in H.
  destruct (Localize L1 _) as [r1 [e1|]], (Localize L2 _) as [r2 [e2|]];
    congruence.
Qed.

Lemma effectiveKey_no_default (key : string) : effectiveKey key "" = key.
Proof. unfold effectiveKey. by rewrite decide_False by tauto. Qed.

Lemma translate_no_catalog (lang key defaultKey : string) :
  translate (NewLocalizer ∅ lang) key defaultKey = effectiveKey key defaultKey.
Proof.
  rewrite translate_effectiveKey. case_decide as Hk; [done|].
  cbn. unfold lookupMessage. by rewrite lookup_empty.
Qed.

(** ** Rendering without a catalog *)

Lemma map_rebuild_entry (l : list Entry) :
  map (fun entry => {| Key := Key entry; Value := Value entry |}) l = l.
Proof. induction l as [|[k v] l IH]; simpl; [done | by rewrite IH]. Qed.

Lemma map_rebuild_action (l : list Action) :
  map (fun action =>
         {| Instructions := Instructions action;
            Action_Button :=
              {| Text := Text (Action_Button action);
                 Button_Link := Button_Link (Action_Button action);
                 Color := Color (Action_Button action) |};
            InvertedButton := InvertedButton action |}) l = l.
Proof. induction l as [|[i [t k c] v] l IH]; simpl; [done | by rewrite IH]. Qed.

Lemma resolved_no_catalog (m : Mailer) (email : Email) (lang : string) :
  bundle m = ∅ -> resolved m email lang = literalContext m email.
Proof.
  intros Hb. rewrite resolved_unfold, Hb. cbv zeta. unfold literalContext.
  rewrite !translate_no_catalog, effectiveKey_no_default.
  destruct email as [[name intros dict [rows cols] actions outros atts g s t] smtp].
  cbn [Email_Body Name Intros Dictionary Body_Table Actions Outros Attachments
       Greeting Signature Title Data Table_Columns].
  do 2 f_equal.
  - rewrite <- (map_id intros) at 2. apply map_ext. intros x.
    by rewrite translate_no_catalog, effectiveKey_no_default.
  - rewrite <- (map_rebuild_entry dict) at 2. apply map_ext. intros x.
    by rewrite translate_no_catalog, effectiveKey_no_default.
  - f_equal. rewrite <- (map_id rows) at 2. apply map_ext. intros row.
    rewrite <- (map_rebuild_entry row) at 2. apply map_ext. intros x.
    by rewrite translate_no_catalog, effectiveKey_no_default.
  - rewrite <- (map_rebuild_action actions) at 2. apply map_ext. intros x.
    by rewrite !translate_no_catalog, !effectiveKey_no_default.
  - rewrite <- (map_id outros) at 2. apply map_ext. intros x.
    by rewrite translate_no_catalog, effectiveKey_no_default.
Qed.

(** X2. A mailer without a catalog renders every text literally, in any
    language: the context of both renderers is the email as it was given,
    with the keys ["greeting"], ["signature"] and ["product.copyright"] in
    place of an empty greeting, signature and copyright. Keys, table cells
    and buttons are passed through unchanged. *)
Theorem render_without_catalog (m : Mailer) (email : Email) (lang : string) :
  bundle m = ∅ ->
  resolved m email lang = literalContext m email ∧
  returned (GenerateHTML email lang) m
  = htmlResult (Execute (template m) (literalContext m email)) ∧
  returned (GeneratePlainText email lang) m
  = (layoutPlainText (bool_decide (Title (Email_Body email) ≠ ""))
                     (literalContext m email), None).
Proof.
  intros Hb.
  rewrite GenerateHTML_result, GeneratePlainText_layout.
  by rewrite (resolved_no_catalog m email lang Hb).
Qed.

Lemma render_without_catalog_witness :
  returned (GeneratePlainText welcomeEmail "fr") sampleMailer
  = (layoutPlainText true (literalContext sampleMailer welcomeEmail), None).
Proof.
  exact (proj2 (proj2 (render_without_catalog sampleMailer welcomeEmail "fr" eq_refl))).
Defined.

(** ** What a render reads of the catalog *)

Lemma map_ext_In {A B} (f g : A -> B) (l : list A) :
  (forall x, In x l -> f x = g x) -> map f l = map g l.
Proof.
  induction l as [|x l IH]; simpl; intros H; [done|].
  rewrite (H x) by auto. by rewrite IH by auto.
Qed.

Lemma agreeOn_translate b1 b2 lang1 lang2 keys key defaultKey :
  agreeOn b1 b2 lang1 lang2 keys ->
  In (effectiveKey key defaultKey) keys ->
  translate (NewLocalizer b1 lang1) key defaultKey
  = translate (NewLocalizer b2 lang2) key defaultKey.
Proof. intros Hagree Hin. apply translate_agree. intros Hk. by apply Hagree. Qed.

Lemma resolved_agree (m : Mailer) (b : Bundle) (email : Email) (lang1 lang2 : string) :
  agreeOn (bundle m) b lang1 lang2 (keysOf m email) ->
  resolved (withBundle m b) email lang2 = resolved m email lang1.
Proof.
  intros Hagree. rewrite !resolved_unfold. cbv zeta.
  assert (Hkey : forall key defaultKey,
             In (effectiveKey key defaultKey) (keysOf m email) ->
             translate (NewLocalizer b lang2) key defaultKey
             = translate (NewLocalizer (bundle m) lang1) key defaultKey).
  { intros key dk Hin. symmetry. by eapply agreeOn_translate. }
  assert (Hplain : forall key,
             In key (keysOf m email) ->
             translate (NewLocalizer b lang2) key ""
             = translate (NewLocalizer (bundle m) lang1) key "").
  { intros key Hin. apply Hkey. by rewrite effectiveKey_no_default. }
  unfold keysOf in Hkey, Hplain.
  cbn [withBundle bundle product theme customCSS].
  set (body := Email_Body email) in *.
  f_equal; [f_equal|f_equal].
  - apply Hkey. simpl. tauto.
  - apply map_ext_In. intros x Hx. apply Hplain.
    do 4 right. apply in_or_app. by left.
  - apply map_ext_In. intros x Hx. f_equal. apply Hplain.
    do 4 right. apply in_or_app. right. apply in_or_app. right.
    apply in_or_app. left. by apply in_map.
  - f_equal. apply map_ext_In. intros row Hrow.
    apply map_ext_In. intros x Hx. f_equal. apply Hplain.
    do 4 right. do 3 (apply in_or_app; right). apply in_or_app. left.
    apply in_concat. exists (map Key row). split; [|by apply in_map].
    by apply (in_map (map Key)).
  - apply map_ext_In. intros x Hx. f_equal; [|f_equal]; apply Hplain.
    + do 4 right. do 4 (apply in_or_app; right). apply in_or_app. left.
      by apply in_map.
    + do 4 right. do 5 (apply in_or_app; right).
      by apply (in_map (fun action => Text (Action_Button action))).
  - apply map_ext_In. intros x Hx. apply Hplain.
    do 4 right. apply in_or_app. right. apply in_or_app. by left.
  - apply Hkey. simpl. tauto.
  - apply Hkey. simpl. tauto.
  - apply Hplain. simpl. tauto.
Qed.

(** X3. A render reads the catalog at the keys of the email only: if the
    localizer of another catalog (and language) answers as the mailer's
    does at every non-empty key the email looks up, both renderers return
    the same results. Catalog entries the email never asks for have no
    influence on the documents. *)
Theorem render_reads_email_keys_only
    (m : Mailer) (b : Bundle) (email : Email) (lang1 lang2 : string) :
  agreeOn (bundle m) b lang1 lang2 (keysOf m email) ->
  returned (GenerateHTML email lang2) (withBundle m b)
  = returned (GenerateHTML email lang1) m ∧
  returned (GeneratePlainText email lang2) (withBundle m b)
  = returned (GeneratePlainText email lang1) m.
Proof.
  intros Hagree.
  rewrite !GenerateHTML_result, !GeneratePlainText_layout.
  by rewrite (resolved_agree m b email lang1 lang2 Hagree).
Qed.

Lemma render_reads_email_keys_only_witness :
  returned (GeneratePlainText welcomeEmail "en") (withBundle sampleMailer otherCatalog)
  = returned (GeneratePlainText welcomeEmail "de") sampleMailer.
Proof.
  apply (render_reads_email_keys_only sampleMailer otherCatalog welcomeEmail "de" "en").
  intros key Hin Hkey. vm_compute in Hin.
  repeat (destruct Hin as [<-|Hin]; [vm_compute; reflexivity|]).
  destruct Hin.
Defined.

(** ** What the projection keeps *)

(** X4. The resolved context has the shape of the email: as many intros,
    outros, dictionary entries, actions and table rows, in the same order,
    and every table row keeps its own number of cells, so a ragged table
    stays ragged. Column settings and display attachments are carried over
    as they are. *)
Theorem processTranslations_keeps_shape
    (m : Mailer) (email : Email) (lang : string) :
  let body := Email_Body email in
  let d := Data_Body (resolved m email lang) in
  length (Intros d) = length (Intros body) ∧
  length (Outros d) = length (Outros body) ∧
  length (Dictionary d) = length (Dictionary body) ∧
  length (Actions d) = length (Actions body) ∧
  map (@length Entry) (Data (Body_Table d))
  = map (@length Entry) (Data (Body_Table body)) ∧
  Table_Columns (Body_Table d) = Table_Columns (Body_Table body) ∧
  Attachments d = Attachments body.
Proof.
  intros body d. subst d. rewrite resolved_unfold. cbv zeta.
  cbn [Data_Body Intros Outros Dictionary Actions Body_Table Data Table_Columns
       Attachments].
  rewrite !length_map, map_map.
  repeat apply conj; try reflexivity.
  apply map_ext. intros row. apply length_map.
Qed.

(** X5. Only keys are translated. The recipient name, the values of the
    dictionary and of the table cells, the links and colours of the
    buttons, the inverted-button flags, and name, link and logo of the
    product, theme and custom CSS reach the template exactly as given,
    under every catalog. *)
Theorem processTranslations_keeps_literals
    (m : Mailer) (email : Email) (lang : string) :
  let body := Email_Body email in
  let d := resolved m email lang in
  Name (Data_Body d) = Name body ∧
  map Value (Dictionary (Data_Body d)) = map Value (Dictionary body) ∧
  map (map Value) (Data (Body_Table (Data_Body d)))
  = map (map Value) (Data (Body_Table body)) ∧
  map (fun a => (Button_Link (Action_Button a), Color (Action_Button a),
                 InvertedButton a)) (Actions (Data_Body d))
  = map (fun a => (Button_Link (Action_Button a), Color (Action_Button a),
                   InvertedButton a)) (Actions body) ∧
  (Product_Name (Data_Product d), Product_Link (Data_Product d),
   Product_Logo (Data_Product d))
  = (Product_Name (product m), Product_Link (product m), Product_Logo (product m)) ∧
  Data_Theme d = theme m ∧
  Data_CustomCSS d = customCSS m.
Proof.
  intros body d. subst d. rewrite resolved_unfold. cbv zeta.
  cbn [Data_Body Data_Product Data_Theme Data_CustomCSS Name Dictionary Actions
       Body_Table Data Product_Name Product_Link Product_Logo].
  rewrite !map_map.
  repeat apply conj; try reflexivity.
  apply map_ext. intros row. by rewrite map_map.
Qed.

(** ** What the plain text never reads *)

(** X6. The plain-text document depends on the mailer through its
    catalog, product name and copyright only: theme, template, custom CSS,
    and link and logo of the product have no influence on it. In
    particular a template whose execution fails does not affect the plain
    text. *)
Theorem plain_text_ignores_style
    (b : Bundle) (name copyright link1 logo1 link2 logo2 css1 css2 : string)
    (theme1 theme2 : Theme) (template1 template2 : Template)
    (email : Email) (lang : string) :
  returned (GeneratePlainText email lang)
           (mkMailer b (mkProduct name link1 logo1 copyright) theme1 template1 css1)
  = returned (GeneratePlainText email lang)
             (mkMailer b (mkProduct name link2 logo2 copyright) theme2 template2 css2).
Proof.
  rewrite !GeneratePlainText_layout, !resolved_unfold. reflexivity.
Qed.

Lemma map_actionText_resolved (L : Localizer) (actions1 actions2 : list Action) :
  map actionText actions1 = map actionText actions2 ->
  concatMap (fun action =>
               translate L (Instructions action) "" +:+ nl
               +:+ translate L (Text (Action_Button action)) "" +:+ ": "
               +:+ Button_Link (Action_Button action) +:+ nl +:+ nl) actions1
  = concatMap (fun action =>
                 translate L (Instructions action) "" +:+ nl
                 +:+ translate L (Text (Action_Button action)) "" +:+ ": "
                 +:+ Button_Link (Action_Button action) +:+ nl +:+ nl) actions2.
Proof.
  revert actions2. induction actions1 as [|a1 l1 IH]; intros [|a2 l2] H;
    try discriminate H; [done|].
  change (actionText a1 :: map actionText l1 = actionText a2 :: map actionText l2) in H.
  assert (Ha : actionText a1 = actionText a2) by congruence.
  assert (Hl : map actionText l1 = map actionText l2) by congruence.
  unfold actionText in Ha.
  assert (Hi : Instructions a1 = Instructions a2) by congruence.
  assert (Ht : Text (Action_Button a1) = Text (Action_Button a2)) by congruence.
  assert (Hk : Button_Link (Action_Button a1) = Button_Link (Action_Button a2))
    by congruence.
  unfold concatMap in *. cbn [foldr]. rewrite (IH l2 Hl). by rewrite Hi, Ht, Hk.
Qed.

(** X7. The plain-text document never reads the table, the colours of the
    buttons or the inverted-button flags: emails that differ in their
    table, and in actions that show the same instruction, button text and
    link, have the same plain text. *)
Theorem plain_text_ignores_table_and_button_style
    (m : Mailer) (email : Email) (lang : string)
    (table : Table) (actions : list Action) :
  map actionText actions = map actionText (Actions (Email_Body email)) ->
  returned (GeneratePlainText (withTableAndActions email table actions) lang) m
  = returned (GeneratePlainText email lang) m.
Proof.
  intros Hactions.
  rewrite !GeneratePlainText_layout. f_equal.
  rewrite !resolved_unfold. cbv zeta.
  unfold layoutPlainText, textGreeting, textTitle, textParagraphs, textIntros,
    textDictionary, textActions, textOutros, textClosing, textSignature,
    textCopyright.
  cbn [withTableAndActions Email_Body Data_Body Data_Product Name Greeting Signature
       Title Intros Dictionary Actions Outros Attachments Product_Name
       Product_Copyright].
  rewrite !concatMap_map.
  cbn [Instructions Action_Button Text Button_Link].
  by rewrite (map_actionText_resolved _ _ _ Hactions).
Qed.

Lemma plain_text_ignores_table_and_button_style_witness :
  returned (GeneratePlainText
              (withTableAndActions welcomeEmail emptyTable
                 [mkAction "email.action.instructions"
                           (mkButton "email.action.button" "https://acme.com/verify" "")
                           true]) "en") englishMailer
  = returned (GeneratePlainText welcomeEmail "en") englishMailer.
Proof.
  apply (plain_text_ignores_table_and_button_style englishMailer welcomeEmail "en").
  reflexivity.
Defined.

(** ** Options and construction *)

Lemma applyOptions_snoc (opts : list Option) (o : Option) :
  applyOptions (opts ++ [o]) = o (applyOptions opts).
Proof. unfold applyOptions. by rewrite foldl_app. Qed.

Lemma New_of_config (Parse : string -> Template + error) (templatesFS : FS)
    (product : Product) (theme : Theme) (opts1 opts2 : list Option) :
  CustomTemplate (applyOptions opts1) = CustomTemplate (applyOptions opts2) ->
  CustomTemplateText (applyOptions opts1) = CustomTemplateText (applyOptions opts2) ->
  CustomTemplateFS (applyOptions opts1) = CustomTemplateFS (applyOptions opts2) ->
  CustomTemplatePath (applyOptions opts1) = CustomTemplatePath (applyOptions opts2) ->
  New Parse templatesFS product theme opts1
  = match New Parse templatesFS product theme opts2 with
    | Returns m => Returns (withCustomCSS m (CustomCSS (applyOptions opts1)))
    | Panics msg => Panics msg
    end.
Proof.
  intros Ht Hx Hf Hp. unfold New. rewrite Ht, Hx, Hf, Hp.
  destruct (CustomTemplate (applyOptions opts2)) as [t|]; [reflexivity|].
  destruct (decide (CustomTemplateText (applyOptions opts2) ≠ "")) as [|_].
  { by destruct (Parse _). }
  destruct (CustomTemplateFS (applyOptions opts2)) as [fsys|],
           (decide (CustomTemplatePath (applyOptions opts2) ≠ "")) as [|];
    repeat match goal with
           | |- context [ReadFile ?f ?p] => destruct (ReadFile f p)
           | |- context [Parse ?c] => destruct (Parse c)
           end; reflexivity.
Qed.

(** X8. The custom CSS has no part in the choice of the template: adding
    [WithCustomCSS css] after any options gives the mailer those options
    give, with [css] as its custom CSS, and the same panic when they
    panic. *)
Theorem New_custom_css_last
    (Parse : string -> Template + error) (templatesFS : FS)
    (product : Product) (theme : Theme) (opts : list Option) (css : string) :
  New Parse templatesFS product theme (opts ++ [WithCustomCSS css])
  = match New Parse templatesFS product theme opts with
    | Returns m => Returns (withCustomCSS m css)
    | Panics msg => Panics msg
    end.
Proof.
  rewrite (New_of_config Parse templatesFS product theme
             (opts ++ [WithCustomCSS css]) opts);
    rewrite ?applyOptions_snoc; reflexivity.
Qed.

(** X9. A pre-parsed template given last wins over everything before it:
    whatever the earlier options are, and whatever the parser and the
    embedded file system would answer, [New] returns the mailer with that
    template and never panics. *)
Theorem New_preparsed_template_last
    (Parse : string -> Template + error) (templatesFS : FS)
    (product : Product) (theme : Theme) (opts : list Option) (t : Template) :
  New Parse templatesFS product theme (opts ++ [WithCustomTemplate (Some t)])
  = Returns (mkMailer ∅ product theme t (CustomCSS (applyOptions opts))).
Proof.
  unfold New. rewrite applyOptions_snoc. reflexivity.
Qed.

Lemma New_returns_fresh
    (Parse : string -> Template + error) (templatesFS : FS)
    (p : Product) (th : Theme) (opts : list Option) (m : Mailer) :
  New Parse templatesFS p th opts = Returns m ->
  product m = p ∧ theme m = th ∧
  customCSS m = CustomCSS (applyOptions opts) ∧ bundle m = ∅.
Proof.
  unfold New. intros H.
  repeat match type of H with
         | context [match ?x with _ => _ end] => destruct x
         end; try discriminate H; injection H as <-; done.
Qed.

(** X10. A mailer that [New] returns holds the product and the theme it
    was given, the custom CSS of its options, and an empty catalog. *)
Theorem New_stores_arguments
    (Parse : string -> Template + error) (templatesFS : FS)
    (p : Product) (th : Theme) (opts : list Option) (m : Mailer) :
  New Parse templatesFS p th opts = Returns m ->
  product m = p ∧ theme m = th ∧
  customCSS m = CustomCSS (applyOptions opts) ∧ bundle m = ∅.
Proof. apply New_returns_fresh. Qed.

Lemma New_stores_arguments_witness :
  exists m,
    New sampleParse sampleTemplatesFS sampleProduct FlatTheme [WithCustomCSS ".a{}"]
    = Returns m ∧
    product m = sampleProduct ∧ theme m = FlatTheme ∧ customCSS m = ".a{}" ∧
    bundle m = ∅.
Proof.
  eexists. split; [reflexivity|].
  exact (New_stores_arguments sampleParse sampleTemplatesFS sampleProduct FlatTheme
           [WithCustomCSS ".a{}"] _ eq_refl).
Defined.

(** X11. A mailer fresh from [New], before any catalog is loaded, renders
    every email literally in every language: both renderers work on the
    email as given, with the default keys in place of an empty greeting,
    signature and copyright. *)
Theorem fresh_mailer_renders_literally
    (Parse : string -> Template + error) (templatesFS : FS)
    (p : Product) (th : Theme) (opts : list Option) (m : Mailer)
    (email : Email) (lang : string) :
  New Parse templatesFS p th opts = Returns m ->
  returned (GenerateHTML email lang) m
  = htmlResult (Execute (template m) (literalContext m email)) ∧
  returned (GeneratePlainText email lang) m
  = (layoutPlainText (bool_decide (Title (Email_Body email) ≠ ""))
                     (literalContext m email), None).
Proof.
  intros Hnew.
  destruct (New_returns_fresh _ _ _ _ _ _ Hnew) as (_ & _ & _ & Hb).
  rewrite GenerateHTML_result, GeneratePlainText_layout.
  by rewrite (resolved_no_catalog m email lang Hb).
Qed.

Lemma fresh_mailer_renders_literally_witness :
  returned (GenerateHTML welcomeEmail "zh")
           (mkMailer ∅ sampleProduct DefaultTheme sampleTemplate "")
  = ("<h1>greeting Jane</h1><p>email.welcome.intro</p>", None).
Proof.
  exact (proj1 (fresh_mailer_renders_literally sampleParse sampleTemplatesFS
                  sampleProduct DefaultTheme [WithCustomTemplate (Some sampleTemplate)]
                  _ welcomeEmail "zh" eq_refl)).
Defined.

(** ** What the plain text always shows *)

Lemma prefix_empty (s : string) : String.prefix "" s = true.
Proof. by destruct s. Qed.

Lemma prefix_app (s t : string) : String.prefix s (s +:+ t) = true.
Proof.
  induction s as [|a s IH]; [apply prefix_empty|].
  change (String a s +:+ t) with (String a (s +:+ t)). cbn [String.prefix].
  destruct (ascii_dec a a) as [_|Hne]; [exact IH | by destruct Hne].
Qed.

Lemma prefix_app_l (sub s t : string) :
  String.prefix sub s = true -> String.prefix sub (s +:+ t) = true.
Proof.
  revert s. induction sub as [|a sub IH]; intros s H; [apply prefix_empty|].
  destruct s as [|b s]; [discriminate H|].
  change (String b s +:+ t) with (String b (s +:+ t)).
  cbn [String.prefix] in *.
  destruct (ascii_dec a b); [by apply IH | done].
Qed.

Lemma Contains_unfold (s sub : string) :
  Contains s sub
  = String.prefix sub s
    || match s with EmptyString => false | String _ s' => Contains s' sub end.
Proof. by destruct s. Qed.

Lemma Contains_head (s t : string) : Contains (s +:+ t) s = true.
Proof. rewrite Contains_unfold, prefix_app. reflexivity. Qed.

Lemma Contains_empty (s : string) : Contains s "" = true.
Proof. by rewrite Contains_unfold, prefix_empty. Qed.

Lemma Contains_app_l (a b sub : string) :
  Contains a sub = true -> Contains (a +:+ b) sub = true.
Proof.
  induction a as [|x a IH]; rewrite (Contains_unfold _ sub); intros H.
  - rewrite orb_false_r in H. destruct sub; [apply Contains_empty | done].
  - change (String x a +:+ b) with (String x (a +:+ b)).
    rewrite (Contains_unfold (String x (a +:+ b))).
    apply orb_true_iff in H as [H|H].
    + change (String x (a +:+ b)) with (String x a +:+ b).
      by rewrite (prefix_app_l _ _ _ H).
    + rewrite (IH H). apply orb_true_r.
Qed.

Lemma Contains_app_r (a b sub : string) :
  Contains b sub = true -> Contains (a +:+ b) sub = true.
Proof.
  intros H. induction a as [|x a IH]; [exact H|].
  change (String x a +:+ b) with (String x (a +:+ b)).
  rewrite Contains_unfold, IH. apply orb_true_r.
Qed.

Lemma Contains_concatMap {A} (f : A -> string) (l : list A) (x : A) (sub : string) :
  In x l -> Contains (f x) sub = true -> Contains (concatMap f l) sub = true.
Proof.
  intros Hin Hx. induction l as [|y l IH]; [destruct Hin|].
  change (concatMap f (y :: l)) with (f y +:+ concatMap f l).
  destruct Hin as [->|Hin]; [by apply Contains_app_l | apply Contains_app_r; auto].
Qed.

(** Walk to the block of a concatenation that starts with the wanted
    text. *)
Ltac find_block :=
  first [ apply Contains_head
        | apply Contains_app_r; find_block ].

Lemma attachmentLines_contains (a : Attachment) :
  Contains (attachmentLines a) (Attachment_Name a) = true ∧
  Contains (attachmentLines a) (Type_ a) = true ∧
  Contains (attachmentLines a) (Size a) = true ∧
  Contains (attachmentLines a) (URL a) = true.
Proof.
  unfold attachmentLines, attachmentDetails. repeat apply conj.
  - find_block.
  - destruct (decide (Type_ a = "")) as [->|Ht]; [apply Contains_empty|].
    destruct (decide (Size a = "")); do 2 apply Contains_app_r;
      apply Contains_app_l; find_block.
  - destruct (decide (Size a = "")) as [->|Hs]; [apply Contains_empty|].
    destruct (decide (Type_ a = "")); do 2 apply Contains_app_r;
      apply Contains_app_l; find_block.
  - find_block.
Qed.

Lemma attachmentsSection_contains (l : list Attachment) (a : Attachment) (sub : string) :
  In a l -> Contains (attachmentLines a) sub = true ->
  Contains (attachmentsSection l) sub = true.
Proof.
  intros Hin H. unfold attachmentsSection.
  destruct l as [|a0 l]; [destruct Hin|].
  do 2 apply Contains_app_r. apply Contains_app_l.
  by apply (Contains_concatMap _ _ a).
Qed.

Lemma attachmentsSection_header (l : list Attachment) (a : Attachment) :
  In a l -> Contains (attachmentsSection l) "Attachments:" = true.
Proof.
  intros Hin. unfold attachmentsSection.
  destruct l; [destruct Hin | apply Contains_head].
Qed.

Lemma textDictionary_contains (d : TemplateData) (entry : Entry) :
  In entry (Dictionary (Data_Body d)) ->
  Contains (textDictionary d) (Value entry) = true.
Proof.
  intros Hin. unfold textDictionary. apply Contains_app_l.
  apply (Contains_concatMap _ _ entry _ Hin). find_block.
Qed.

Lemma textActions_contains (d : TemplateData) (action : Action) :
  In action (Actions (Data_Body d)) ->
  Contains (textActions d) (Button_Link (Action_Button action)) = true.
Proof.
  intros Hin. unfold textActions.
  apply (Contains_concatMap _ _ action _ Hin). find_block.
Qed.

(** X12. Literal texts are written to the plain-text document as they are,
    under every catalog: it contains the recipient name, the product name,
    the value of every dictionary entry, the link of every button, and for
    every display attachment the header ["Attachments:"], its name, its
    type and size labels and its URL. *)
Theorem plain_text_shows_literals (m : Mailer) (email : Email) (lang : string) :
  let body := Email_Body email in
  let doc := fst (returned (GeneratePlainText email lang) m) in
  Contains doc (Name body) = true ∧
  Contains doc (Product_Name (product m)) = true ∧
  (forall entry, In entry (Dictionary body) -> Contains doc (Value entry) = true) ∧
  (forall action, In action (Actions body) ->
     Contains doc (Button_Link (Action_Button action)) = true) ∧
  (forall a, In a (Attachments body) ->
     Contains doc "Attachments:" = true ∧
     Contains doc (Attachment_Name a) = true ∧
     Contains doc (Type_ a) = true ∧
     Contains doc (Size a) = true ∧
     Contains doc (URL a) = true).
Proof.
  intros body doc. subst doc.
  rewrite GeneratePlainText_layout, layout_sections. cbn [fst].
  set (d := resolved m email lang).
  assert (Hd : d = resolved m email lang) by reflexivity.
  rewrite resolved_unfold in Hd. cbv zeta in Hd.
  assert (Hname : Name (Data_Body d) = Name body) by (by rewrite Hd).
  assert (Hproduct : Product_Name (Data_Product d) = Product_Name (product m))
    by (by rewrite Hd).
  assert (Hatts : Attachments (Data_Body d) = Attachments body) by (by rewrite Hd).
  repeat apply conj.
  - apply Contains_app_l. unfold textGreeting. rewrite Hname. find_block.
  - do 4 apply Contains_app_r. apply Contains_app_l.
    unfold textSignature. rewrite Hproduct. find_block.
  - intros entry Hin.
    do 2 apply Contains_app_r. apply Contains_app_l.
    unfold textParagraphs. apply Contains_app_r. apply Contains_app_l.
    change (Value entry)
      with (Value {| Key := translate (NewLocalizer (bundle m) lang) (Key entry) "";
                     Value := Value entry |}).
    apply textDictionary_contains. rewrite Hd. cbn [Data_Body Dictionary].
    by apply (in_map (fun entry =>
                        {| Key := translate (NewLocalizer (bundle m) lang) (Key entry) "";
                           Value := Value entry |})).
  - intros action Hin.
    do 2 apply Contains_app_r. apply Contains_app_l.
    unfold textParagraphs. do 2 apply Contains_app_r. apply Contains_app_l.
    pose (f := fun action =>
            {| Instructions :=
                 translate (NewLocalizer (bundle m) lang) (Instructions action) "";
               Action_Button :=
                 {| Text := translate (NewLocalizer (bundle m) lang)
                              (Text (Action_Button action)) "";
                    Button_Link := Button_Link (Action_Button action);
                    Color := Color (Action_Button action) |};
               InvertedButton := InvertedButton action |}).
    change (Button_Link (Action_Button action))
      with (Button_Link (Action_Button (f action))).
    apply textActions_contains. rewrite Hd. cbn [Data_Body Actions].
    by apply (in_map f).
  - intros a Hin.
    assert (Hsection : forall sub,
              Contains (attachmentsSection (Attachments body)) sub = true ->
              Contains
                (textGreeting d +:+ textTitle (bool_decide (Title body ≠ "")) d
                 +:+ textParagraphs d +:+ attachmentsSection (Attachments (Data_Body d))
                 +:+ textClosing d) sub = true).
    { intros sub H. rewrite Hatts. do 3 apply Contains_app_r.
      by apply Contains_app_l. }
    destruct (attachmentLines_contains a) as (Hn & Ht & Hs & Hu).
    repeat apply conj; apply Hsection.
    + by apply (attachmentsSection_header _ a).
    + by apply (attachmentsSection_contains _ a).
    + by apply (attachmentsSection_contains _ a).
    + by apply (attachmentsSection_contains _ a).
    + by apply (attachmentsSection_contains _ a).
Qed.

Lemma plain_text_shows_literals_witness :
  Contains (fst (returned (GeneratePlainText welcomeEmail "en") englishMailer))
           "janesmith" = true.
Proof.
  destruct (plain_text_shows_literals englishMailer welcomeEmail "en")
    as (_ & _ & Hdict & _).
  apply (Hdict (mkEntry "email.username" "janesmith")). left. reflexivity.
Defined.
